(** * cryptoSuiteKit: the suite dispatch and public-key normalisation layer

    A shallow embedding of [src/crypto/suites.ts] and
    [src/errors/KeyValidationError.ts].

    The elliptic-curve primitives ([@noble/curves]) are imported by the
    repository and are not part of it: they appear here as two interfaces,
    [PointCodec] and [SignatureProvider], over which every suite is
    parametrised.  Strings are sequences of characters whose [length] is the
    number of code units, as [String.prototype.length] counts them. *)

From Bignums Require Import BigZ.
From Stdlib Require Import List ZArith Lia Bool Ascii String DecimalString.
Import ListNotations.
Open Scope string_scope.

(** ** Completions: a call returns a value or throws *)

Inductive completion (E A : Type) : Type :=
| Returns (a : A)
| Throws (e : E).
Arguments Returns {E A} a.
Arguments Throws {E A} e.

(** An [Error] raised inside the primitive provider. *)
Inductive NativeError : Type :=
| JsError (message : string).

(** What a caller of the suites can catch: the repository's own
    [KeyValidationError] (errors/KeyValidationError.ts) or a failure of the
    provider that went through uncaught. *)
Inductive exn : Type :=
| KeyValidationError (message : string)
| ProviderFailure (e : NativeError).

Definition provided : Type -> Type := completion NativeError.
Definition outcome : Type -> Type := completion exn.

(** A provider call made outside any [try]: its failure goes to the caller
    as it is. *)
Definition uncaught {A : Type} (c : provided A) : outcome A :=
  match c with
  | Returns a => Returns a
  | Throws e => Throws (ProviderFailure e)
  end.

Definition bind {A B : Type} (c : outcome A) (k : A -> outcome B) : outcome B :=
  match c with
  | Returns a => k a
  | Throws e => Throws e
  end.

Notation "x <- c ;; k" := (bind c (fun x => k))
  (at level 61, c at next level, right associativity).

(** ** Public types (suites.ts, lines 8-10) *)

Inductive SupportedCurve : Type := secp256k1 | ed25519.
Inductive SupportedScheme : Type := ECDSA | Schnorr | EdDSA.
Inductive PublicKeyFormat : Type := compressed | uncompressed | schnorr.

(** The tags are string literals in the source; these are their spellings. *)
Definition curveTag (c : SupportedCurve) : string :=
  match c with
  | secp256k1 => "secp256k1"
  | ed25519 => "ed25519"
  end.

Definition schemeTag (s : SupportedScheme) : string :=
  match s with
  | ECDSA => "ECDSA"
  | Schnorr => "Schnorr"
  | EdDSA => "EdDSA"
  end.

Definition SupportedScheme_eqb (a b : SupportedScheme) : bool :=
  match a, b with
  | ECDSA, ECDSA | Schnorr, Schnorr | EdDSA, EdDSA => true
  | _, _ => false
  end.

Definition PublicKeyFormat_eqb (a b : PublicKeyFormat) : bool :=
  match a, b with
  | compressed, compressed | uncompressed, uncompressed | schnorr, schnorr => true
  | _, _ => false
  end.

(** [options?: { outputFormat?: PublicKeyFormat }] *)
Record Options : Type := { outputFormat : option PublicKeyFormat }.

(** [{ publicKey: string; format: PublicKeyFormat }] *)
Record NormalizedKey : Type := { publicKey : string; format : PublicKeyFormat }.

(** The interface [ICryptoSuite] (lines 16-44). *)
Record ICryptoSuite : Type := {
  validateAndNormalizePublicKey : string -> option Options -> outcome NormalizedKey;
  sign : string -> string -> outcome string;
  verify : string -> string -> string -> outcome bool
}.

(** ** The primitive provider *)

(** Point parsing and serialisation: [secp256k1.Point.fromHex],
    [point.toBytes(isCompressed)], [ed25519.Point.fromHex], and the
    [bytesToHex] of the provider's utilities. *)
Class PointCodec : Type := {
  secp256k1_Point : Type;
  ed25519_Point : Type;
  secp256k1_Point_fromHex : string -> provided secp256k1_Point;
  secp256k1_toBytes : secp256k1_Point -> bool -> list Byte.byte;
  ed25519_Point_fromHex : string -> provided ed25519_Point;
  bytesToHex : list Byte.byte -> string
}.

(** Signing and verification, with the argument order of the provider:
    [sign(messageHash, privateKey)], [verify(signature, messageHash, publicKey)]. *)
Class SignatureProvider : Type := {
  secp256k1_Signature : Type;
  secp256k1_sign : string -> string -> provided secp256k1_Signature;
  toCompactHex : secp256k1_Signature -> string;
  secp256k1_verify : string -> string -> string -> provided bool;
  schnorr_sign : string -> string -> provided (list Byte.byte);
  schnorr_verify : string -> string -> string -> provided bool;
  ed25519_sign : string -> string -> provided (list Byte.byte);
  ed25519_verify : string -> string -> string -> provided bool
}.

(** ** String helpers of the host language *)

(** [s.startsWith(p)] *)
Definition startsWith (s p : string) : bool := String.prefix p s.

(** The decimal rendering of a length inside a template literal. *)
Definition decimal (n : nat) : string := NilEmpty.string_of_uint (Nat.to_uint n).

(** ** Suite implementations (suites.ts, lines 48-136) *)

Section Suites.
Context {codec : PointCodec} {signer : SignatureProvider}.

(** Lines 53-64: the input format read off the length and the prefix;
    [None] is the [undefined] the variable starts with. *)
Definition Ecdsa_inputFormat (pubKeyHex : string) : option PublicKeyFormat :=
  if (length pubKeyHex =? 66)%nat
     && (startsWith pubKeyHex "02" || startsWith pubKeyHex "03")
  then Some compressed
  else if (length pubKeyHex =? 128)%nat
          || ((length pubKeyHex =? 130)%nat && startsWith pubKeyHex "04")
  then Some uncompressed
  else None.

(** Line 72: [options?.outputFormat || 'compressed']. *)
Definition desiredFormat (options : option Options) : PublicKeyFormat :=
  match options with
  | Some {| outputFormat := Some f |} => f
  | _ => compressed
  end.

(** Lines 76-78: the argument handed to [secp256k1.Point.fromHex]. *)
Definition Ecdsa_pointHex (inputFormat : PublicKeyFormat) (pubKeyHex : string) : string :=
  if PublicKeyFormat_eqb inputFormat uncompressed && (length pubKeyHex =? 128)%nat
  then "04" ++ pubKeyHex
  else pubKeyHex.

Definition Ecdsa_validateAndNormalizePublicKey
  (pubKeyHex : string) (options : option Options) : outcome NormalizedKey :=
  match Ecdsa_inputFormat pubKeyHex with
  | None =>
      Throws (KeyValidationError
                "Invalid ECDSA public key format. Expected 33 or 65 bytes.")
  | Some inputFormat =>
      let shouldCompress := PublicKeyFormat_eqb (desiredFormat options) compressed in
      point <- uncaught (secp256k1_Point_fromHex (Ecdsa_pointHex inputFormat pubKeyHex)) ;;
      Returns {| publicKey := bytesToHex (secp256k1_toBytes point shouldCompress);
                 format := desiredFormat options |}
  end.

Definition Ecdsa_sign (privateKey messageHash : string) : outcome string :=
  signature <- uncaught (secp256k1_sign messageHash privateKey) ;;
  Returns (toCompactHex signature).

Definition Ecdsa_verify (signature messageHash publicKey : string) : outcome bool :=
  uncaught (secp256k1_verify signature messageHash publicKey).

Definition EcdsaSecp256k1Suite : ICryptoSuite :=
  {| validateAndNormalizePublicKey := Ecdsa_validateAndNormalizePublicKey;
     sign := Ecdsa_sign;
     verify := Ecdsa_verify |}.

(** Lines 95-103.  The method declares the key as its only parameter: a
    second argument passed through the interface is dropped. *)
Definition Schnorr_validateAndNormalizePublicKey
  (pubKeyHex : string) (_ : option Options) : outcome NormalizedKey :=
  if negb (length pubKeyHex =? 64)%nat
  then Throws (KeyValidationError
                 ("Invalid Schnorr (BIP340) public key length. Expected 32 bytes (64 hex chars), got "
                  ++ decimal (length pubKeyHex) ++ "."))
  else Returns {| publicKey := pubKeyHex; format := schnorr |}.

Definition Schnorr_sign (privateKey messageHash : string) : outcome string :=
  signatureBytes <- uncaught (schnorr_sign messageHash privateKey) ;;
  Returns (bytesToHex signatureBytes).

Definition Schnorr_verify (signature messageHash publicKey : string) : outcome bool :=
  uncaught (schnorr_verify signature messageHash publicKey).

Definition SchnorrSecp256k1Suite : ICryptoSuite :=
  {| validateAndNormalizePublicKey := Schnorr_validateAndNormalizePublicKey;
     sign := Schnorr_sign;
     verify := Schnorr_verify |}.

(** Lines 113-128.  The provider is called inside [try]; whatever it throws
    is replaced by a [KeyValidationError], and the decoded point is dropped. *)
Definition Eddsa_validateAndNormalizePublicKey
  (pubKeyHex : string) (_ : option Options) : outcome NormalizedKey :=
  if negb (length pubKeyHex =? 64)%nat
  then Throws (KeyValidationError
                 ("Invalid EdDSA (Ed25519) public key length. Expected 32 bytes (64 hex chars), got "
                  ++ decimal (length pubKeyHex) ++ "."))
  else
    match ed25519_Point_fromHex pubKeyHex with
    | Throws _ =>
        Throws (KeyValidationError
                  "Invalid Ed25519 public key. Not a valid point on the curve.")
    | Returns _ => Returns {| publicKey := pubKeyHex; format := compressed |}
    end.

Definition Eddsa_sign (privateKey messageHash : string) : outcome string :=
  signatureBytes <- uncaught (ed25519_sign messageHash privateKey) ;;
  Returns (bytesToHex signatureBytes).

Definition Eddsa_verify (signature messageHash publicKey : string) : outcome bool :=
  uncaught (ed25519_verify signature messageHash publicKey).

Definition EddsaEd25519Suite : ICryptoSuite :=
  {| validateAndNormalizePublicKey := Eddsa_validateAndNormalizePublicKey;
     sign := Eddsa_sign;
     verify := Eddsa_verify |}.

(** ** Registry and factory (lines 140-171) *)

(** [Record<SupportedCurve, Partial<Record<SupportedScheme, ICryptoSuite>>>]:
    every curve has an entry, each entry lists the schemes it maps. *)
Definition cryptoSuites (curve : SupportedCurve) : list (SupportedScheme * ICryptoSuite) :=
  match curve with
  | secp256k1 => [(ECDSA, EcdsaSecp256k1Suite); (Schnorr, SchnorrSecp256k1Suite)]
  | ed25519 => [(EdDSA, EddsaEd25519Suite)]
  end.

(** Property access on an entry: [undefined] when the scheme is not a key. *)
Fixpoint entry (scheme : SupportedScheme) (entries : list (SupportedScheme * ICryptoSuite))
  : option ICryptoSuite :=
  match entries with
  | [] => None
  | (k, suite) :: rest => if SupportedScheme_eqb k scheme then Some suite else entry scheme rest
  end.

Record SuiteParams : Type := { curve : SupportedCurve; scheme : SupportedScheme }.

Definition getCryptoSuite (params : SuiteParams) : outcome ICryptoSuite :=
  match entry (scheme params) (cryptoSuites (curve params)) with
  | Some suite => Returns suite
  | None =>
      Throws (KeyValidationError
                ("The scheme '" ++ schemeTag (scheme params)
                 ++ "' is not supported for the curve '" ++ curveTag (curve params) ++ "'."))
  end.

End Suites.

(** ** A reference provider

    An executable rendering of the point codecs of [@noble/curves]
    ([abstract/utils], [abstract/weierstrass], [ed25519]), the library the
    repository imports.  The theorems below hold for every [PointCodec]; this
    instance serves to run the suites on concrete keys.  It follows the
    library in what it accepts and what it rejects; the wording of its error
    messages is its own. *)

Module Noble.

Open Scope Z_scope.

Definition byteOfZ (n : Z) : Byte.byte := byte_of_ascii (ascii_of_N (Z.to_N n)).
Definition byteToZ (b : Byte.byte) : Z := Z.of_N (Byte.to_N b).

(** [asciiToBase16]: both letter cases are digits. *)
Definition asciiToBase16 (ch : ascii) : option Z :=
  let c := Z.of_N (N_of_ascii ch) in
  if (48 <=? c) && (c <=? 57) then Some (c - 48)
  else if (65 <=? c) && (c <=? 70) then Some (c - 55)
  else if (97 <=? c) && (c <=? 102) then Some (c - 87)
  else None.

(** [hexToBytes]: fails on an odd length and on a character that is no digit. *)
Fixpoint hexToBytes (hex : string) : provided (list Byte.byte) :=
  match hex with
  | EmptyString => Returns []
  | String _ EmptyString => Throws (JsError "hex string expected, got unpadded hex")
  | String hi (String lo rest) =>
      match asciiToBase16 hi, asciiToBase16 lo with
      | Some h, Some l =>
          match hexToBytes rest with
          | Returns bytes => Returns (byteOfZ (h * 16 + l) :: bytes)
          | Throws e => Throws e
          end
      | _, _ => Throws (JsError "hex string expected, got non-hex character")
      end
  end.

Definition hexChar (n : Z) : ascii :=
  ascii_of_N (Z.to_N (if n <? 10 then 48 + n else 87 + n)).

(** [bytesToHex]: two lower-case digits per byte. *)
Fixpoint bytesToHex (bytes : list Byte.byte) : string :=
  match bytes with
  | [] => EmptyString
  | b :: rest =>
      String (hexChar (byteToZ b / 16)) (String (hexChar (byteToZ b mod 16)) (bytesToHex rest))
  end.

Definition bytesToNumberBE (bytes : list Byte.byte) : Z :=
  fold_left (fun acc b => acc * 256 + byteToZ b) bytes 0.

Definition bytesToNumberLE (bytes : list Byte.byte) : Z :=
  fold_right (fun b acc => acc * 256 + byteToZ b) 0 bytes.

Fixpoint numberToBytesBE (len : nat) (n : Z) : list Byte.byte :=
  match len with
  | O => []
  | S k => numberToBytesBE k (n / 256) ++ [byteOfZ (n mod 256)]
  end.

(** Modular exponentiation by squaring, on the bits of the exponent.  The
    intermediate values are kept in machine words, so that 256-bit keys
    evaluate quickly. *)
Fixpoint powPos (b : bigZ) (e : positive) (m : bigZ) : bigZ :=
  match e with
  | xH => BigZ.modulo b m
  | xO e' => let r := powPos b e' m in BigZ.modulo (BigZ.mul r r) m
  | xI e' => let r := powPos b e' m in BigZ.modulo (BigZ.mul (BigZ.mul r r) b) m
  end.

Definition pow (b e m : Z) : Z :=
  match e with
  | Zpos e' => BigZ.to_Z (powPos (BigZ.of_Z b) e' (BigZ.of_Z m))
  | _ => 1 mod m
  end.

Record Affine : Type := { x : Z; y : Z }.

(** *** secp256k1: y^2 = x^3 + 7 over the field of order [P] *)

Definition secp256k1_P : Z := 2 ^ 256 - 2 ^ 32 - 977.

Definition weierstrassEquation (x : Z) : Z := (x * x * x + 7) mod secp256k1_P.

(** [Fp.sqrt] for a field order that is 3 mod 4. *)
Definition Fp_sqrt (n : Z) : option Z :=
  let root := pow n ((secp256k1_P + 1) / 4) secp256k1_P in
  if (root * root) mod secp256k1_P =? n then Some root else None.

Definition Fp_isValid (n : Z) : bool := (0 <=? n) && (n <? secp256k1_P).

(** [fromBytes]: 33 bytes headed 02 or 03, or 65 bytes headed 04. *)
Definition secp256k1_fromBytes (bytes : list Byte.byte) : provided Affine :=
  match bytes with
  | [] => Throws (JsError "invalid Point, expected length of 33, or uncompressed 65")
  | head :: tail =>
      let h := byteToZ head in
      if (List.length bytes =? 33)%nat && ((h =? 2) || (h =? 3)) then
        let x := bytesToNumberBE tail in
        if negb (Fp_isValid x) then Throws (JsError "Point is not on curve")
        else
          match Fp_sqrt (weierstrassEquation x) with
          | None => Throws (JsError "Point is not on curve: Cannot find square root")
          | Some y =>
              let isYOdd := Z.odd y in
              let isHeadOdd := Z.odd h in
              Returns {| x := x;
                         y := if Bool.eqb isHeadOdd isYOdd then y else (secp256k1_P - y) mod secp256k1_P |}
          end
      else if (List.length bytes =? 65)%nat && (h =? 4) then
        Returns {| x := bytesToNumberBE (firstn 32 tail);
                   y := bytesToNumberBE (skipn 32 tail) |}
      else Throws (JsError "invalid Point, expected length of 33, or uncompressed 65")
  end.

(** [assertValidity] on an affine point of a curve of cofactor one. *)
Definition secp256k1_assertValidity (p : Affine) : provided Affine :=
  if (x p =? 0) && (y p =? 0) then Throws (JsError "bad point: ZERO")
  else if negb (Fp_isValid (x p) && Fp_isValid (y p)) then Throws (JsError "bad point: x or y not FE")
  else if negb ((y p * y p) mod secp256k1_P =? weierstrassEquation (x p))
  then Throws (JsError "bad point: equation left != right")
  else Returns p.

Definition secp256k1_fromHex (hex : string) : provided Affine :=
  match hexToBytes hex with
  | Throws e => Throws e
  | Returns bytes =>
      match secp256k1_fromBytes bytes with
      | Throws e => Throws e
      | Returns p => secp256k1_assertValidity p
      end
  end.

Definition secp256k1_toBytes (p : Affine) (isCompressed : bool) : list Byte.byte :=
  if isCompressed
  then byteOfZ (if Z.even (y p) then 2 else 3) :: numberToBytesBE 32 (x p)
  else byteOfZ 4 :: numberToBytesBE 32 (x p) ++ numberToBytesBE 32 (y p).

(** *** ed25519: -x^2 + y^2 = 1 + d x^2 y^2 over the field of order [P] *)

Definition ed25519_P : Z := 2 ^ 255 - 19.
Definition ed25519_d : Z :=
  37095705934669439343138083508754565189542113879843219016388785533085940283555.
Definition ED25519_SQRT_M1 : Z :=
  19681161376707505956807079304988542015446066515923890162744021073123829784752.

Definition modP (n : Z) : Z := n mod ed25519_P.

(** [uvRatio]: a square root of u/v when there is one. *)
Definition uvRatio (u v : Z) : bool * Z :=
  let v3 := modP (v * v * v) in
  let v7 := modP (v3 * v3 * v) in
  let pw := pow (u * v7) ((ed25519_P - 5) / 8) ed25519_P in
  let x := modP (u * v3 * pw) in
  let vx2 := modP (v * x * x) in
  let root1 := x in
  let root2 := modP (x * ED25519_SQRT_M1) in
  let useRoot1 := vx2 =? u in
  let useRoot2 := vx2 =? modP (- u) in
  let noRoot := vx2 =? modP (- u * ED25519_SQRT_M1) in
  let x := if useRoot1 then root1 else x in
  let x := if useRoot2 || noRoot then root2 else x in
  let x := if Z.odd x then modP (- x) else x in
  (useRoot1 || useRoot2, x).

(** [Point.fromHex] with [zip215 = false]: exactly 32 bytes, y below the
    field order, and an x that solves the curve equation. *)
Definition ed25519_fromHex (hex : string) : provided Affine :=
  match hexToBytes hex with
  | Throws e => Throws e
  | Returns bytes =>
      if negb (List.length bytes =? 32)%nat then Throws (JsError "pointHex of length 32 expected")
      else
        let lastByte := byteToZ (last bytes Byte.x00) in
        let y := bytesToNumberLE bytes - (if 128 <=? lastByte then 2 ^ 255 else 0) in
        if negb ((0 <=? y) && (y <? ed25519_P)) then Throws (JsError "pointHex.y out of range")
        else
          let y2 := modP (y * y) in
          let u := modP (y2 - 1) in
          let v := modP (ed25519_d * y2 + 1) in
          let '(isValid, x) := uvRatio u v in
          if negb isValid then Throws (JsError "Point.fromHex: invalid y coordinate")
          else
            let isXOdd := Z.odd x in
            let isLastByteOdd := 128 <=? lastByte in
            if (x =? 0) && isLastByteOdd then Throws (JsError "Point.fromHex: x=0 and x_0=1")
            else Returns {| x := if Bool.eqb isLastByteOdd isXOdd then x else modP (- x); y := y |}
  end.

Definition codec : PointCodec :=
  Build_PointCodec Affine Affine secp256k1_fromHex secp256k1_toBytes ed25519_fromHex bytesToHex.

End Noble.

(** ** The accepted input forms of the ECDSA suite, as the specification lists them

    Section 4.1: a 33-byte key headed by 02 or 03 (compressed), a 65-byte key
    headed by 04 (uncompressed), or a 64-byte body, which is completed with
    the 04 prefix before it is parsed.  [AcceptedForm s f h]: the key [s] has
    the form [f] and [h] is the encoding that goes to the point parser. *)
Inductive AcceptedForm (s : string) : PublicKeyFormat -> string -> Prop :=
| compressed33 :
    length s = 66 -> startsWith s "02" = true \/ startsWith s "03" = true ->
    AcceptedForm s compressed s
| uncompressed65 :
    length s = 130 -> startsWith s "04" = true ->
    AcceptedForm s uncompressed s
| body64 :
    length s = 128 ->
    AcceptedForm s uncompressed ("04" ++ s).

(** ** Unwrapped delegation, as section 7 of the specification words it

    A call of a suite passes a call of the provider through when the value
    the provider returns is returned (after [finish], the rendering of the
    result), the failure the provider raises is raised as it is, and no
    [KeyValidationError] comes out. *)
Definition PassesThrough {A B : Type}
  (provider_call : provided A) (finish : A -> B) (suite_call : outcome B) : Prop :=
  (forall a, provider_call = Returns a -> suite_call = Returns (finish a))
  /\ (forall e, provider_call = Throws e -> suite_call = Throws (ProviderFailure e))
  /\ (forall message, suite_call <> Throws (KeyValidationError message)).

(** ** Concrete keys *)

(** The generator of secp256k1, compressed and uncompressed. *)
Definition G_compressed : string :=
  "0279be667ef9dcbbac55a06295ce870b07029bfcdb2dce28d959f2815b16f81798".
Definition G_uncompressed : string :=
  "0479be667ef9dcbbac55a06295ce870b07029bfcdb2dce28d959f2815b16f81798483ada7726a3c4655da4fbfc0e1108a8fd17b448a68554199c47d08ffb10d4b8".
Definition G_body : string :=
  "79be667ef9dcbbac55a06295ce870b07029bfcdb2dce28d959f2815b16f81798483ada7726a3c4655da4fbfc0e1108a8fd17b448a68554199c47d08ffb10d4b8".
Definition G_point : Noble.Affine :=
  {| Noble.x := 55066263022277343669578718895168534326250603453777594175500187360389116729240;
     Noble.y := 32670510020758816978083085130507043184471273380659243275938904335757337482424 |}.


(** 33 bytes headed by 02 whose x coordinate is not below the field order. *)
Definition off_curve_compressed : string :=
  "02ffffffffffffffffffffffffffffffffffffffffffffffffffffffffffffffff".

(** The base point of ed25519, and 32 bytes whose y has no matching x. *)
Definition B_ed25519 : string :=
  "5866666666666666666666666666666666666666666666666666666666666666".
Definition off_curve_ed25519 : string :=
  "0200000000000000000000000000000000000000000000000000000000000000".

(** 64 characters, none of them a hexadecimal digit. *)
Definition not_hex_64 : string :=
  "zzzzzzzzzzzzzzzzzzzzzzzzzzzzzzzzzzzzzzzzzzzzzzzzzzzzzzzzzzzzzzzz".

(** 33 bytes headed by 02 with no hexadecimal digit after the prefix. *)
Definition not_hex_compressed : string :=
  "02zzzzzzzzzzzzzzzzzzzzzzzzzzzzzzzzzzzzzzzzzzzzzzzzzzzzzzzzzzzzzzzz".

(** * Properties *)

(** ** Completions *)

Lemma uncaught_returns {A : Type} (c : provided A) (a : A) :
  uncaught c = Returns a <-> c = Returns a.
Proof.
  destruct c as [a' | e]; simpl; split; intros H; try discriminate; congruence.
Qed.

Lemma uncaught_never_validation_error {A : Type} (c : provided A) (message : string) :
  uncaught c <> Throws (KeyValidationError message).
Proof.
  destruct c; simpl; discriminate.
Qed.

Lemma bind_returns {A B : Type} (c : outcome A) (k : A -> outcome B) (b : B) :
  bind c k = Returns b <-> exists a, c = Returns a /\ k a = Returns b.
Proof.
  destruct c as [a | e]; simpl; split.
  - intros H. exists a. auto.
  - intros (a' & Ha & Hk). congruence.
  - discriminate.
  - intros (a' & Ha & _). discriminate.
Qed.

(** ** The arithmetic of the reference provider *)

Lemma powPos_spec (b : bigZ) (e : positive) (m : bigZ) :
  BigZ.to_Z (Noble.powPos b e m) = ((BigZ.to_Z b ^ Zpos e) mod BigZ.to_Z m)%Z.
Proof.
  induction e as [e IH | e IH |]; simpl Noble.powPos.
  - rewrite BigZ.spec_modulo, !BigZ.spec_mul, IH.
    rewrite Pos2Z.inj_xI, Z.pow_add_r, Z.pow_1_r, Z.pow_twice_r by lia.
    set (x := (BigZ.to_Z b ^ Z.pos e)%Z).
    rewrite (Zmult_mod (x mod _ * (x mod _))), <- (Zmult_mod x x).
    now rewrite <- Zmult_mod.
  - rewrite BigZ.spec_modulo, BigZ.spec_mul, IH.
    rewrite Pos2Z.inj_xO, Z.pow_twice_r.
    now rewrite <- Zmult_mod.
  - rewrite BigZ.spec_modulo, Z.pow_1_r. reflexivity.
Qed.

Lemma pow_spec (b e m : Z) : (0 < e)%Z -> Noble.pow b e m = ((b ^ e) mod m)%Z.
Proof.
  destruct e as [| e | e]; try lia. intros _. unfold Noble.pow.
  now rewrite powPos_spec, !BigZ.spec_of_Z.
Qed.

(** ** Strings *)

Lemma startsWith_append (p s : string) : startsWith (p ++ s) p = true.
Proof.
  unfold startsWith. induction p as [| c p IH]; simpl.
  - destruct s; reflexivity.
  - destruct (ascii_dec c c) as [_ | Hne]; [exact IH | contradiction].
Qed.

Lemma length_append (p s : string) : length (p ++ s) = length p + length s.
Proof.
  induction p as [| c p IH]; simpl; [reflexivity | now rewrite IH].
Qed.

(** ** Format detection of the ECDSA suite *)

Lemma Ecdsa_inputFormat_compressed (s : string) :
  Ecdsa_inputFormat s = Some compressed <->
  length s = 66 /\ (startsWith s "02" = true \/ startsWith s "03" = true).
Proof.
  unfold Ecdsa_inputFormat.
  destruct (Nat.eqb_spec (length s) 66) as [H66 | H66]; simpl.
  - destruct (startsWith s "02"), (startsWith s "03"); simpl;
      try (split; [intros _; split; auto | reflexivity]).
    rewrite H66. simpl. split; [discriminate | intros (_ & [H | H]); discriminate].
  - destruct ((length s =? 128)%nat || (length s =? 130)%nat && startsWith s "04");
      split; try discriminate; intros (H & _); contradiction.
Qed.

Lemma Ecdsa_inputFormat_uncompressed (s : string) :
  Ecdsa_inputFormat s = Some uncompressed <->
  length s = 128 \/ (length s = 130 /\ startsWith s "04" = true).
Proof.
  unfold Ecdsa_inputFormat.
  destruct (Nat.eqb_spec (length s) 66) as [H66 | H66]; simpl.
  - rewrite H66. simpl.
    destruct (startsWith s "02" || startsWith s "03");
      (split; [discriminate | intros [H | (H & _)]; lia]).
  - destruct (Nat.eqb_spec (length s) 128) as [H128 | H128]; simpl.
    + split; auto.
    + destruct (Nat.eqb_spec (length s) 130) as [H130 | H130]; simpl.
      * destruct (startsWith s "04"); split; auto; try discriminate.
        intros [H | (_ & H)]; [contradiction | discriminate].
      * split; [discriminate | intros [H | (H & _)]; contradiction].
Qed.

Lemma Ecdsa_inputFormat_not_schnorr (s : string) : Ecdsa_inputFormat s <> Some schnorr.
Proof.
  unfold Ecdsa_inputFormat.
  destruct ((length s =? 66)%nat && (startsWith s "02" || startsWith s "03")); [discriminate |].
  destruct ((length s =? 128)%nat || (length s =? 130)%nat && startsWith s "04"); discriminate.
Qed.

Lemma AcceptedForm_iff (s : string) (f : PublicKeyFormat) (h : string) :
  AcceptedForm s f h <-> Ecdsa_inputFormat s = Some f /\ Ecdsa_pointHex f s = h.
Proof.
  split.
  - intros [H66 Hp | H130 Hp | H128].
    + split; [apply Ecdsa_inputFormat_compressed; auto | reflexivity].
    + split; [apply Ecdsa_inputFormat_uncompressed; auto |].
      unfold Ecdsa_pointHex. rewrite H130. reflexivity.
    + split; [apply Ecdsa_inputFormat_uncompressed; auto |].
      unfold Ecdsa_pointHex. rewrite H128. reflexivity.
  - intros (Hf & <-). destruct f.
    + apply Ecdsa_inputFormat_compressed in Hf as (H66 & Hp).
      unfold Ecdsa_pointHex. simpl. now constructor.
    + apply Ecdsa_inputFormat_uncompressed in Hf as [H128 | (H130 & Hp)];
        unfold Ecdsa_pointHex; simpl.
      * rewrite H128. simpl. now constructor.
      * rewrite H130. simpl. now constructor.
    + now apply Ecdsa_inputFormat_not_schnorr in Hf.
Qed.

Section SuiteProperties.
Context {codec : PointCodec} {signer : SignatureProvider}.

(** The suites' first method is, by definition, the function of that name. *)
Lemma suites_validate_methods :
  validateAndNormalizePublicKey EcdsaSecp256k1Suite = Ecdsa_validateAndNormalizePublicKey
  /\ validateAndNormalizePublicKey SchnorrSecp256k1Suite = Schnorr_validateAndNormalizePublicKey
  /\ validateAndNormalizePublicKey EddsaEd25519Suite = Eddsa_validateAndNormalizePublicKey.
Proof.
  repeat split.
Qed.

(** Past format detection the ECDSA suite is the provider's parser followed
    by the provider's serialiser. *)
Lemma Ecdsa_validate_accepted (s : string) (options : option Options) (f : PublicKeyFormat) :
  Ecdsa_inputFormat s = Some f ->
  Ecdsa_validateAndNormalizePublicKey s options =
  (point <- uncaught (secp256k1_Point_fromHex (Ecdsa_pointHex f s)) ;;
   Returns {| publicKey :=
                bytesToHex (secp256k1_toBytes point
                              (PublicKeyFormat_eqb (desiredFormat options) compressed));
              format := desiredFormat options |}).
Proof.
  intros Hf. unfold Ecdsa_validateAndNormalizePublicKey. rewrite Hf. reflexivity.
Qed.

Lemma Ecdsa_validate_format_error (s : string) (options : option Options) :
  Ecdsa_validateAndNormalizePublicKey s options
  = Throws (KeyValidationError "Invalid ECDSA public key format. Expected 33 or 65 bytes.")
  <-> Ecdsa_inputFormat s = None.
Proof.
  unfold Ecdsa_validateAndNormalizePublicKey.
  destruct (Ecdsa_inputFormat s) as [f |]; [| split; reflexivity].
  split; [| discriminate].
  destruct (secp256k1_Point_fromHex (Ecdsa_pointHex f s)); simpl; discriminate.
Qed.

(** An accepted key that the provider parses is answered with the provider's
    serialisation of the point. *)
Lemma Ecdsa_validate_decoded
  (s : string) (options : option Options) (f : PublicKeyFormat) (h : string)
  (point : secp256k1_Point) :
  AcceptedForm s f h ->
  secp256k1_Point_fromHex h = Returns point ->
  Ecdsa_validateAndNormalizePublicKey s options
  = Returns {| publicKey :=
                 bytesToHex (secp256k1_toBytes point
                               (PublicKeyFormat_eqb (desiredFormat options) compressed));
               format := desiredFormat options |}.
Proof.
  intros Hacc Hdec. apply AcceptedForm_iff in Hacc as (Hf & <-).
  rewrite (Ecdsa_validate_accepted _ _ _ Hf), Hdec. reflexivity.
Qed.

(** C1.  The ECDSA suite's format detection accepts exactly the three forms
    of the specification: 66 characters headed by 02 or 03 (compressed), 130
    characters headed by 04 (uncompressed), and 128 characters, which are
    parsed with 04 put in front.  An accepted key goes to the point parser in
    that encoding; a key of no accepted form, and only such a key, fails with
    the validation error "Invalid ECDSA public key format. Expected 33 or 65
    bytes." *)
Theorem ecdsa_accepts_exactly_the_three_forms (pubKeyHex : string) (options : option Options) :
  (forall f h, AcceptedForm pubKeyHex f h <->
               Ecdsa_inputFormat pubKeyHex = Some f /\ Ecdsa_pointHex f pubKeyHex = h)
  /\ (forall f h, AcceptedForm pubKeyHex f h ->
        Ecdsa_validateAndNormalizePublicKey pubKeyHex options =
        (point <- uncaught (secp256k1_Point_fromHex h) ;;
         Returns {| publicKey :=
                      bytesToHex (secp256k1_toBytes point
                                    (PublicKeyFormat_eqb (desiredFormat options) compressed));
                    format := desiredFormat options |}))
  /\ ((forall f h, ~ AcceptedForm pubKeyHex f h) <->
      Ecdsa_validateAndNormalizePublicKey pubKeyHex options
      = Throws (KeyValidationError
                  "Invalid ECDSA public key format. Expected 33 or 65 bytes.")).
Proof.
  split; [| split].
  - intros f h. apply AcceptedForm_iff.
  - intros f h Hacc. apply AcceptedForm_iff in Hacc as (Hf & <-).
    now apply Ecdsa_validate_accepted.
  - rewrite Ecdsa_validate_format_error. split.
    + intros Hnone. destruct (Ecdsa_inputFormat pubKeyHex) as [f |] eqn:Hf; [| reflexivity].
      exfalso. apply (Hnone f (Ecdsa_pointHex f pubKeyHex)).
      apply AcceptedForm_iff. auto.
    + intros Hnone f h Hacc. apply AcceptedForm_iff in Hacc as (Hf & _). congruence.
Qed.

(** C2.  A key of an accepted form that the provider's parser rejects makes
    the ECDSA suite fail with the provider's own error, passed on as it is:
    the failure is not a [KeyValidationError]. *)
Theorem ecdsa_decoding_failure_is_not_a_validation_error
  (pubKeyHex : string) (options : option Options) (f : PublicKeyFormat) (h : string)
  (e : NativeError) :
  AcceptedForm pubKeyHex f h ->
  secp256k1_Point_fromHex h = Throws e ->
  Ecdsa_validateAndNormalizePublicKey pubKeyHex options = Throws (ProviderFailure e)
  /\ forall message,
       Ecdsa_validateAndNormalizePublicKey pubKeyHex options
       <> Throws (KeyValidationError message).
Proof.
  intros Hacc He. apply AcceptedForm_iff in Hacc as (Hf & <-).
  rewrite (Ecdsa_validate_accepted _ _ _ Hf), He. simpl.
  split; [reflexivity | discriminate].
Qed.

(** C3.  [getCryptoSuite] returns the suite of each of the three mapped pairs,
    and for every other pair of tags it fails with a validation error whose
    message spells out the requested scheme and the requested curve. *)
Theorem getCryptoSuite_resolves_exactly_three_pairs :
  getCryptoSuite {| curve := secp256k1; scheme := ECDSA |} = Returns EcdsaSecp256k1Suite
  /\ getCryptoSuite {| curve := secp256k1; scheme := Schnorr |} = Returns SchnorrSecp256k1Suite
  /\ getCryptoSuite {| curve := ed25519; scheme := EdDSA |} = Returns EddsaEd25519Suite
  /\ forall c s,
       (c, s) <> (secp256k1, ECDSA) ->
       (c, s) <> (secp256k1, Schnorr) ->
       (c, s) <> (ed25519, EdDSA) ->
       getCryptoSuite {| curve := c; scheme := s |}
       = Throws (KeyValidationError
                   ("The scheme '" ++ schemeTag s
                    ++ "' is not supported for the curve '" ++ curveTag c ++ "'.")).
Proof.
  repeat split.
  intros c s H1 H2 H3. destruct c, s; try reflexivity; congruence.
Qed.

(** The three pairs of tags that have no suite, with their messages. *)
Example getCryptoSuite_unmapped_pairs :
  getCryptoSuite {| curve := secp256k1; scheme := EdDSA |}
  = Throws (KeyValidationError "The scheme 'EdDSA' is not supported for the curve 'secp256k1'.")
  /\ getCryptoSuite {| curve := ed25519; scheme := ECDSA |}
     = Throws (KeyValidationError "The scheme 'ECDSA' is not supported for the curve 'ed25519'.")
  /\ getCryptoSuite {| curve := ed25519; scheme := Schnorr |}
     = Throws (KeyValidationError "The scheme 'Schnorr' is not supported for the curve 'ed25519'.").
Proof.
  repeat split.
Qed.

(** C4.  The Schnorr suite fails, for a key whose length is not 64, with a
    validation error that states the expected 64 hex characters and the
    length it got; a key of length 64 is returned as it came, tagged
    [schnorr].  No point codec is consulted: the result is the same under
    every provider. *)
Theorem schnorr_checks_length_only (pubKeyHex : string) (options : option Options) :
  (length pubKeyHex <> 64 ->
     Schnorr_validateAndNormalizePublicKey pubKeyHex options
     = Throws (KeyValidationError
                 ("Invalid Schnorr (BIP340) public key length. Expected 32 bytes (64 hex chars), got "
                  ++ decimal (length pubKeyHex) ++ ".")))
  /\ (length pubKeyHex = 64 ->
     Schnorr_validateAndNormalizePublicKey pubKeyHex options
     = Returns {| publicKey := pubKeyHex; format := schnorr |}).
Proof.
  simpl. unfold Schnorr_validateAndNormalizePublicKey.
  destruct (Nat.eqb_spec (length pubKeyHex) 64) as [H64 | H64]; simpl;
    split; intros H; solve [reflexivity | contradiction].
Qed.

(** C5.  The EdDSA suite fails for a key whose length is not 64; for a key of
    length 64 that the provider's parser rejects it fails with the validation
    error "Invalid Ed25519 public key. Not a valid point on the curve."; and a
    key of length 64 that parses is returned as it came, tagged [compressed],
    whatever the options say. *)
Theorem eddsa_validates_length_then_point (pubKeyHex : string) (options : option Options) :
  (length pubKeyHex <> 64 ->
     Eddsa_validateAndNormalizePublicKey pubKeyHex options
     = Throws (KeyValidationError
                 ("Invalid EdDSA (Ed25519) public key length. Expected 32 bytes (64 hex chars), got "
                  ++ decimal (length pubKeyHex) ++ ".")))
  /\ (length pubKeyHex = 64 ->
      forall e, ed25519_Point_fromHex pubKeyHex = Throws e ->
     Eddsa_validateAndNormalizePublicKey pubKeyHex options
     = Throws (KeyValidationError
                 "Invalid Ed25519 public key. Not a valid point on the curve."))
  /\ (length pubKeyHex = 64 ->
      forall point, ed25519_Point_fromHex pubKeyHex = Returns point ->
     Eddsa_validateAndNormalizePublicKey pubKeyHex options
     = Returns {| publicKey := pubKeyHex; format := compressed |}).
Proof.
  simpl. unfold Eddsa_validateAndNormalizePublicKey.
  destruct (Nat.eqb_spec (length pubKeyHex) 64) as [H64 | H64]; simpl.
  - split; [intros H; contradiction |].
    split; intros _ ? Hp; rewrite Hp; reflexivity.
  - split; [reflexivity |]. split; intros H; contradiction.
Qed.


(** X1.  A 64-byte body is answered exactly as the same key with its 04 prefix
    (lines 60-63 and 76-78). *)
Theorem ecdsa_body_is_the_uncompressed_key_without_prefix
  (pubKeyHex : string) (options : option Options) :
  length pubKeyHex = 128 ->
  Ecdsa_validateAndNormalizePublicKey pubKeyHex options
  = Ecdsa_validateAndNormalizePublicKey ("04" ++ pubKeyHex) options.
Proof.
  intros H128.
  assert (Hb : AcceptedForm pubKeyHex uncompressed ("04" ++ pubKeyHex)) by now constructor.
  assert (Hu : AcceptedForm ("04" ++ pubKeyHex) uncompressed ("04" ++ pubKeyHex)).
  { constructor; [rewrite length_append, H128; reflexivity | apply startsWith_append]. }
  apply AcceptedForm_iff in Hb as (Hfb & Hhb), Hu as (Hfu & Hhu).
  rewrite (Ecdsa_validate_accepted _ _ _ Hfb), (Ecdsa_validate_accepted _ _ _ Hfu).
  now rewrite Hhb, Hhu.
Qed.

(** C7.  A successful call of the ECDSA suite returns the provider's
    serialisation of the decoded point in the requested format: compressed
    when no format is given or [compressed] is asked for, uncompressed when
    [uncompressed] is asked for, tagged as requested.  Every other accepted
    spelling of the same point, whatever its input form, gives the very same
    result under the same options. *)
Theorem ecdsa_output_is_the_requested_encoding_of_the_point
  (pubKeyHex : string) (options : option Options) (r : NormalizedKey) :
  Ecdsa_validateAndNormalizePublicKey pubKeyHex options = Returns r ->
  exists f h point,
    AcceptedForm pubKeyHex f h
    /\ secp256k1_Point_fromHex h = Returns point
    /\ match options with
       | None | Some {| outputFormat := None |} | Some {| outputFormat := Some compressed |} =>
           r = {| publicKey := bytesToHex (secp256k1_toBytes point true);
                  format := compressed |}
       | Some {| outputFormat := Some uncompressed |} =>
           r = {| publicKey := bytesToHex (secp256k1_toBytes point false);
                  format := uncompressed |}
       | Some {| outputFormat := Some schnorr |} =>
           r = {| publicKey := bytesToHex (secp256k1_toBytes point false);
                  format := schnorr |}
       end
    /\ (forall other f' h',
          AcceptedForm other f' h' ->
          secp256k1_Point_fromHex h' = Returns point ->
          Ecdsa_validateAndNormalizePublicKey other options = Returns r).
Proof.
  intros Hr.
  destruct (Ecdsa_inputFormat pubKeyHex) as [f |] eqn:Hf.
  2:{ apply (Ecdsa_validate_format_error pubKeyHex options) in Hf.
      rewrite Hf in Hr. discriminate. }
  rewrite (Ecdsa_validate_accepted _ _ _ Hf) in Hr.
  apply bind_returns in Hr as (point & Hdec & Hr).
  apply uncaught_returns in Hdec. injection Hr as <-.
  exists f, (Ecdsa_pointHex f pubKeyHex), point.
  split; [apply AcceptedForm_iff; auto |].
  split; [exact Hdec |].
  split.
  - destruct options as [[[[| |] |]] |]; reflexivity.
  - intros other f' h' Hacc Hdec'.
    now apply (Ecdsa_validate_decoded other options f' h').
Qed.

Lemma uncaught_passes_through {A : Type} (c : provided A) :
  PassesThrough c (fun a => a) (uncaught c).
Proof.
  repeat split.
  - now intros a ->.
  - now intros e ->.
  - apply uncaught_never_validation_error.
Qed.

Lemma bind_uncaught_passes_through {A B : Type} (c : provided A) (finish : A -> B) :
  PassesThrough c finish (a <- uncaught c ;; Returns (finish a)).
Proof.
  repeat split.
  - now intros a ->.
  - now intros e ->.
  - destruct c; simpl; discriminate.
Qed.

(** C8.  In each of the three suites [verify] is the provider's verification
    and nothing else: the boolean the provider returns is returned ([false]
    for a signature that does not match), and what the provider throws is
    thrown as it is.  [sign] is the provider's signing followed by the hex
    rendering of its result, and passes failures on in the same way.
    Neither ever fails with a [KeyValidationError]. *)
Theorem sign_and_verify_pass_provider_results_through
  (signature messageHash publicKey privateKey : string) :
  PassesThrough (secp256k1_verify signature messageHash publicKey) (fun b => b)
    (verify EcdsaSecp256k1Suite signature messageHash publicKey)
  /\ PassesThrough (schnorr_verify signature messageHash publicKey) (fun b => b)
       (verify SchnorrSecp256k1Suite signature messageHash publicKey)
  /\ PassesThrough (ed25519_verify signature messageHash publicKey) (fun b => b)
       (verify EddsaEd25519Suite signature messageHash publicKey)
  /\ PassesThrough (secp256k1_sign messageHash privateKey) toCompactHex
       (sign EcdsaSecp256k1Suite privateKey messageHash)
  /\ PassesThrough (schnorr_sign messageHash privateKey) bytesToHex
       (sign SchnorrSecp256k1Suite privateKey messageHash)
  /\ PassesThrough (ed25519_sign messageHash privateKey) bytesToHex
       (sign EddsaEd25519Suite privateKey messageHash).
Proof.
  repeat apply conj;
    first [apply uncaught_passes_through | apply bind_uncaught_passes_through].
Qed.

(** C9.  The Schnorr suite looks at the length of the key and at nothing
    else: every string of exactly 64 characters, hexadecimal or not, is
    returned unchanged with the tag [schnorr]. *)
Theorem schnorr_accepts_every_string_of_length_64
  (pubKeyHex : string) (options : option Options) :
  length pubKeyHex = 64 ->
  Schnorr_validateAndNormalizePublicKey pubKeyHex options
  = Returns {| publicKey := pubKeyHex; format := schnorr |}.
Proof.
  intros H64. simpl. unfold Schnorr_validateAndNormalizePublicKey.
  rewrite H64. reflexivity.
Qed.

(** C10.  The ECDSA suite compresses only when the requested format is
    [compressed]: asked for [schnorr] on a key that decodes, it does not
    fail; it returns the uncompressed encoding of the point (130 characters
    when the provider writes 65 bytes) under the tag [schnorr]. *)
Theorem ecdsa_schnorr_request_yields_uncompressed_encoding
  (pubKeyHex : string) (f : PublicKeyFormat) (h : string) (point : secp256k1_Point) :
  AcceptedForm pubKeyHex f h ->
  secp256k1_Point_fromHex h = Returns point ->
  length (bytesToHex (secp256k1_toBytes point false)) = 130 ->
  exists r,
    Ecdsa_validateAndNormalizePublicKey pubKeyHex
      (Some {| outputFormat := Some schnorr |}) = Returns r
    /\ publicKey r = bytesToHex (secp256k1_toBytes point false)
    /\ length (publicKey r) = 130
    /\ format r = schnorr.
Proof.
  intros Hacc Hdec H130. apply AcceptedForm_iff in Hacc as (Hf & <-).
  exists {| publicKey := bytesToHex (secp256k1_toBytes point false); format := schnorr |}.
  simpl. rewrite (Ecdsa_validate_accepted _ _ _ Hf), Hdec. auto.
Qed.

End SuiteProperties.

(** * Further properties of the suites *)

Lemma startsWith_reads_the_prefix (p s s' : string) :
  substring 0 (length p) s = substring 0 (length p) s' ->
  startsWith s p = startsWith s' p.
Proof.
  intros H. unfold startsWith. apply Bool.eq_iff_eq_true.
  rewrite !prefix_correct, H. reflexivity.
Qed.

Lemma AcceptedForm_length (s : string) (f : PublicKeyFormat) (h : string) :
  AcceptedForm s f h -> length s = 66 \/ length s = 130 \/ length s = 128.
Proof.
  intros [H _ | H _ | H]; auto.
Qed.

Lemma Ecdsa_inputFormat_length_64 (s : string) :
  length s = 64 -> Ecdsa_inputFormat s = None.
Proof.
  intros H. unfold Ecdsa_inputFormat. rewrite H. reflexivity.
Qed.

Section MoreSuiteProperties.
Context {codec : PointCodec} {signer : SignatureProvider}.

(** X2.  The ECDSA suite has two ways to fail and no third: the validation
    error for the format, on a key of no accepted form, and the provider's
    own error, on a key of an accepted form that the parser rejects. *)
Theorem ecdsa_failure_is_format_or_provider
  (pubKeyHex : string) (options : option Options) (e : exn) :
  Ecdsa_validateAndNormalizePublicKey pubKeyHex options = Throws e ->
  (e = KeyValidationError "Invalid ECDSA public key format. Expected 33 or 65 bytes."
   /\ forall f h, ~ AcceptedForm pubKeyHex f h)
  \/ (exists f h n,
        AcceptedForm pubKeyHex f h
        /\ secp256k1_Point_fromHex h = Throws n
        /\ e = ProviderFailure n).
Proof.
  intros He. destruct (Ecdsa_inputFormat pubKeyHex) as [f |] eqn:Hf.
  - right. rewrite (Ecdsa_validate_accepted _ _ _ Hf) in He.
    destruct (secp256k1_Point_fromHex (Ecdsa_pointHex f pubKeyHex)) as [point | n] eqn:Hdec;
      simpl in He; [discriminate |].
    exists f, (Ecdsa_pointHex f pubKeyHex), n.
    split; [apply AcceptedForm_iff; auto |]. split; [exact Hdec | congruence].
  - left. split.
    + apply (Ecdsa_validate_format_error pubKeyHex options) in Hf. congruence.
    + intros f h Hacc. apply AcceptedForm_iff in Hacc as (Hf' & _). congruence.
Qed.

(** X3.  The EdDSA suite returns a key only when it has 64 characters and the
    provider parsed it, and then returns that very key tagged [compressed];
    whatever goes wrong, the failure is a [KeyValidationError]. *)
Theorem eddsa_returns_only_parsed_keys (pubKeyHex : string) (options : option Options) :
  (forall r,
     Eddsa_validateAndNormalizePublicKey pubKeyHex options = Returns r ->
     length pubKeyHex = 64
     /\ (exists point, ed25519_Point_fromHex pubKeyHex = Returns point)
     /\ r = {| publicKey := pubKeyHex; format := compressed |})
  /\ (forall e,
        Eddsa_validateAndNormalizePublicKey pubKeyHex options = Throws e ->
        exists message, e = KeyValidationError message).
Proof.
  unfold Eddsa_validateAndNormalizePublicKey.
  destruct (Nat.eqb_spec (length pubKeyHex) 64) as [H64 | H64]; simpl.
  - destruct (ed25519_Point_fromHex pubKeyHex) as [point | n]; split.
    + intros r [= <-]. split; [exact H64 |]. split; [now exists point | reflexivity].
    + discriminate.
    + discriminate.
    + intros e [= <-]. eauto.
  - split; [discriminate | intros e [= <-]; eauto].
Qed.

(** X4.  Under a provider that parses the two encodings it writes for a
    point, a result of the ECDSA suite can be fed back to it: normalising the
    returned key under any options gives what normalising the original key
    under those options gives.  Idempotence and both round trips between the
    compressed and the uncompressed key are instances. *)
Theorem ecdsa_renormalising_a_result
  (pubKeyHex : string) (f : PublicKeyFormat) (h : string) (point : secp256k1_Point)
  (first second : option Options) :
  AcceptedForm pubKeyHex f h ->
  secp256k1_Point_fromHex h = Returns point ->
  AcceptedForm (bytesToHex (secp256k1_toBytes point true)) compressed
    (bytesToHex (secp256k1_toBytes point true)) ->
  secp256k1_Point_fromHex (bytesToHex (secp256k1_toBytes point true)) = Returns point ->
  AcceptedForm (bytesToHex (secp256k1_toBytes point false)) uncompressed
    (bytesToHex (secp256k1_toBytes point false)) ->
  secp256k1_Point_fromHex (bytesToHex (secp256k1_toBytes point false)) = Returns point ->
  exists r,
    Ecdsa_validateAndNormalizePublicKey pubKeyHex first = Returns r
    /\ Ecdsa_validateAndNormalizePublicKey (publicKey r) second
       = Ecdsa_validateAndNormalizePublicKey pubKeyHex second.
Proof.
  intros Hacc Hdec Hc Hdc Hu Hdu.
  eexists. split; [apply (Ecdsa_validate_decoded _ _ _ _ _ Hacc Hdec) |].
  rewrite (Ecdsa_validate_decoded _ second _ _ _ Hacc Hdec). simpl.
  destruct (PublicKeyFormat_eqb (desiredFormat first) compressed).
  - apply (Ecdsa_validate_decoded _ second _ _ _ Hc Hdc).
  - apply (Ecdsa_validate_decoded _ second _ _ _ Hu Hdu).
Qed.

(** X5.  The suites do not take each other's keys for their own.  A key of a
    form the ECDSA suite accepts is refused for its length by the Schnorr and
    the EdDSA suite; a key of 64 characters is refused for its format by the
    ECDSA suite; and a key the EdDSA suite returns is returned by the Schnorr
    suite too, under the other tag. *)
Theorem suites_tell_keys_apart_by_length
  (pubKeyHex : string) (options options' : option Options) :
  (forall f h,
     AcceptedForm pubKeyHex f h ->
     Schnorr_validateAndNormalizePublicKey pubKeyHex options'
     = Throws (KeyValidationError
                 ("Invalid Schnorr (BIP340) public key length. Expected 32 bytes (64 hex chars), got "
                  ++ decimal (length pubKeyHex) ++ "."))
     /\ Eddsa_validateAndNormalizePublicKey pubKeyHex options'
        = Throws (KeyValidationError
                    ("Invalid EdDSA (Ed25519) public key length. Expected 32 bytes (64 hex chars), got "
                     ++ decimal (length pubKeyHex) ++ ".")))
  /\ (length pubKeyHex = 64 ->
      Ecdsa_validateAndNormalizePublicKey pubKeyHex options
      = Throws (KeyValidationError
                  "Invalid ECDSA public key format. Expected 33 or 65 bytes."))
  /\ (forall r,
        Eddsa_validateAndNormalizePublicKey pubKeyHex options = Returns r ->
        Schnorr_validateAndNormalizePublicKey pubKeyHex options'
        = Returns {| publicKey := publicKey r; format := schnorr |}).
Proof.
  split; [| split].
  - intros f h Hacc. apply AcceptedForm_length in Hacc.
    unfold Schnorr_validateAndNormalizePublicKey, Eddsa_validateAndNormalizePublicKey.
    destruct (Nat.eqb_spec (length pubKeyHex) 64) as [H64 | H64]; [lia |].
    split; reflexivity.
  - intros H64. apply Ecdsa_validate_format_error. now apply Ecdsa_inputFormat_length_64.
  - intros r Hr.
    unfold Eddsa_validateAndNormalizePublicKey in Hr.
    unfold Schnorr_validateAndNormalizePublicKey.
    destruct (Nat.eqb_spec (length pubKeyHex) 64) as [H64 | H64]; simpl in *;
      [| discriminate].
    destruct (ed25519_Point_fromHex pubKeyHex); [| discriminate].
    now injection Hr as <-.
Qed.

(** X6.  The format detection of the ECDSA suite reads the length of the key
    and its first two characters, and nothing else: two keys that agree on
    both are classified alike, so one is refused for its format exactly when
    the other is. *)
Theorem ecdsa_format_reads_length_and_two_characters
  (pubKeyHex pubKeyHex' : string) (options : option Options) :
  length pubKeyHex = length pubKeyHex' ->
  substring 0 2 pubKeyHex = substring 0 2 pubKeyHex' ->
  Ecdsa_inputFormat pubKeyHex = Ecdsa_inputFormat pubKeyHex'
  /\ (Ecdsa_validateAndNormalizePublicKey pubKeyHex options
      = Throws (KeyValidationError "Invalid ECDSA public key format. Expected 33 or 65 bytes.")
      <-> Ecdsa_validateAndNormalizePublicKey pubKeyHex' options
          = Throws (KeyValidationError "Invalid ECDSA public key format. Expected 33 or 65 bytes.")).
Proof.
  intros Hlen Hsub.
  assert (Hfmt : Ecdsa_inputFormat pubKeyHex = Ecdsa_inputFormat pubKeyHex').
  { unfold Ecdsa_inputFormat. rewrite Hlen.
    rewrite (startsWith_reads_the_prefix "02" _ _ Hsub).
    rewrite (startsWith_reads_the_prefix "03" _ _ Hsub).
    rewrite (startsWith_reads_the_prefix "04" _ _ Hsub).
    reflexivity. }
  split; [exact Hfmt |].
  now rewrite !Ecdsa_validate_format_error, Hfmt.
Qed.

(** X7.  In the Schnorr and in the EdDSA suite normalisation is idempotent:
    the key of a result, validated again under any options, gives the same
    result. *)
Theorem schnorr_and_eddsa_normalisation_is_idempotent
  (pubKeyHex : string) (options options' : option Options) (r : NormalizedKey) :
  (Schnorr_validateAndNormalizePublicKey pubKeyHex options = Returns r ->
   Schnorr_validateAndNormalizePublicKey (publicKey r) options' = Returns r)
  /\ (Eddsa_validateAndNormalizePublicKey pubKeyHex options = Returns r ->
      Eddsa_validateAndNormalizePublicKey (publicKey r) options' = Returns r).
Proof.
  unfold Schnorr_validateAndNormalizePublicKey, Eddsa_validateAndNormalizePublicKey.
  destruct (Nat.eqb_spec (length pubKeyHex) 64) as [H64 | H64]; simpl;
    [| split; discriminate].
  split.
  - intros [= <-]. simpl. rewrite H64. reflexivity.
  - destruct (ed25519_Point_fromHex pubKeyHex) as [point | n] eqn:Hdec; [| discriminate].
    intros [= <-]. simpl. rewrite H64, Hdec. reflexivity.
Qed.

End MoreSuiteProperties.

(** * Concrete runs on the reference provider *)

(** The reference provider writes and parses the generator as the standard
    documents give it. *)
Lemma generator_codec_facts :
  @bytesToHex Noble.codec (@secp256k1_toBytes Noble.codec G_point true) = G_compressed
  /\ @bytesToHex Noble.codec (@secp256k1_toBytes Noble.codec G_point false) = G_uncompressed
  /\ @secp256k1_Point_fromHex Noble.codec G_compressed = Returns G_point
  /\ @secp256k1_Point_fromHex Noble.codec G_uncompressed = Returns G_point.
Proof.
  vm_compute. repeat split.
Qed.

Lemma generator_accepted_forms :
  AcceptedForm G_compressed compressed G_compressed
  /\ AcceptedForm G_uncompressed uncompressed G_uncompressed
  /\ AcceptedForm G_body uncompressed G_uncompressed.
Proof.
  split; [| split].
  - apply compressed33; [reflexivity | left; reflexivity].
  - apply uncompressed65; reflexivity.
  - apply (body64 G_body). reflexivity.
Qed.

(** C1 at the generator: its three accepted spellings normalise to the same
    compressed key, and a 66-character key headed by 05 is refused for its
    format. *)
Example ecdsa_three_forms_of_the_generator :
  @Ecdsa_validateAndNormalizePublicKey Noble.codec G_compressed None
  = Returns {| publicKey := G_compressed; format := compressed |}
  /\ @Ecdsa_validateAndNormalizePublicKey Noble.codec G_uncompressed None
     = Returns {| publicKey := G_compressed; format := compressed |}
  /\ @Ecdsa_validateAndNormalizePublicKey Noble.codec G_body None
     = Returns {| publicKey := G_compressed; format := compressed |}
  /\ @Ecdsa_validateAndNormalizePublicKey Noble.codec
       "0579be667ef9dcbbac55a06295ce870b07029bfcdb2dce28d959f2815b16f81798" None
     = Throws (KeyValidationError "Invalid ECDSA public key format. Expected 33 or 65 bytes.").
Proof.
  destruct generator_codec_facts as (Hc & _ & Hdc & Hdu).
  destruct generator_accepted_forms as (Ac & Au & Ab).
  rewrite (Ecdsa_validate_decoded _ None _ _ _ Ac Hdc).
  rewrite (Ecdsa_validate_decoded _ None _ _ _ Au Hdu).
  rewrite (Ecdsa_validate_decoded _ None _ _ _ Ab Hdu).
  cbn [desiredFormat PublicKeyFormat_eqb]. rewrite Hc.
  repeat split.
Qed.

(** C2 at a key of accepted form that is no point: the caller gets the
    provider's error, not a [KeyValidationError]. *)
Lemma ecdsa_off_curve_key_raises_the_provider_error :
  @Ecdsa_validateAndNormalizePublicKey Noble.codec off_curve_compressed None
  = Throws (ProviderFailure (JsError "Point is not on curve"))
  /\ forall message,
       @Ecdsa_validateAndNormalizePublicKey Noble.codec off_curve_compressed None
       <> Throws (KeyValidationError message).
Proof.
  apply (@ecdsa_decoding_failure_is_not_a_validation_error
           Noble.codec off_curve_compressed None compressed off_curve_compressed).
  - apply compressed33; [reflexivity | left; reflexivity].
  - vm_compute. reflexivity.
Defined.

(** The sibling suite wraps the same kind of failure. *)
Example eddsa_off_curve_key_raises_a_validation_error :
  @Eddsa_validateAndNormalizePublicKey Noble.codec off_curve_ed25519 None
  = Throws (KeyValidationError "Invalid Ed25519 public key. Not a valid point on the curve.").
Proof.
  vm_compute. reflexivity.
Qed.

(** C4 on a short key, on the empty key, and on 64 hex characters that are
    no x coordinate (the value is above the field order). *)
Example schnorr_length_examples :
  Schnorr_validateAndNormalizePublicKey "02abcd" None
  = Throws (KeyValidationError
              "Invalid Schnorr (BIP340) public key length. Expected 32 bytes (64 hex chars), got 6.")
  /\ Schnorr_validateAndNormalizePublicKey "" None
     = Throws (KeyValidationError
                 "Invalid Schnorr (BIP340) public key length. Expected 32 bytes (64 hex chars), got 0.")
  /\ Schnorr_validateAndNormalizePublicKey G_compressed None
     = Throws (KeyValidationError
                 "Invalid Schnorr (BIP340) public key length. Expected 32 bytes (64 hex chars), got 66.")
  /\ Schnorr_validateAndNormalizePublicKey
       "ffffffffffffffffffffffffffffffffffffffffffffffffffffffffffffffff"
       (Some {| outputFormat := Some uncompressed |})
     = Returns {| publicKey := "ffffffffffffffffffffffffffffffffffffffffffffffffffffffffffffffff";
                  format := schnorr |}.
Proof.
  repeat split.
Qed.

(** C5 on the base point, asked for another format, and on a key of 66
    characters. *)
Example eddsa_examples :
  @Eddsa_validateAndNormalizePublicKey Noble.codec B_ed25519
    (Some {| outputFormat := Some uncompressed |})
  = Returns {| publicKey := B_ed25519; format := compressed |}
  /\ @Eddsa_validateAndNormalizePublicKey Noble.codec G_compressed None
     = Throws (KeyValidationError
                 "Invalid EdDSA (Ed25519) public key length. Expected 32 bytes (64 hex chars), got 66.").
Proof.
  vm_compute. split; reflexivity.
Qed.




(** The provider reads both letter cases and writes the lower one: an
    upper-case spelling of the generator comes back in lower case. *)
Example ecdsa_upper_case_key_comes_back_in_lower_case :
  @Ecdsa_validateAndNormalizePublicKey Noble.codec
    "0279BE667EF9DCBBAC55A06295CE870B07029BFCDB2DCE28D959F2815B16F81798" None
  = Returns {| publicKey := G_compressed; format := compressed |}.
Proof.
  vm_compute. reflexivity.
Qed.

(** C7 at the generator: the 64-byte body normalises to the compressed key,
    and so, by the theorem, does the 65-byte spelling of the same point. *)
Lemma ecdsa_body_and_uncompressed_key_agree :
  @Ecdsa_validateAndNormalizePublicKey Noble.codec G_body None
  = Returns {| publicKey := G_compressed; format := compressed |}
  /\ @Ecdsa_validateAndNormalizePublicKey Noble.codec G_uncompressed None
     = Returns {| publicKey := G_compressed; format := compressed |}.
Proof.
  destruct ecdsa_three_forms_of_the_generator as (_ & _ & Hrun & _).
  split; [exact Hrun |].
  destruct (@ecdsa_output_is_the_requested_encoding_of_the_point Noble.codec _ _ _ Hrun)
    as (f & h & point & Hacc & Hdec & _ & Hother).
  assert (Hh : h = G_uncompressed).
  { inversion Hacc as [H66 _ | H130 _ | H128]; subst;
      [discriminate H66 | discriminate H130 | reflexivity]. }
  subst h.
  apply (Hother G_uncompressed uncompressed G_uncompressed); [| exact Hdec].
  apply uncompressed65; reflexivity.
Defined.

(** C9 on a key with no hexadecimal digit in it. *)
Lemma schnorr_accepts_a_key_that_is_not_hex :
  Schnorr_validateAndNormalizePublicKey not_hex_64 None
  = Returns {| publicKey := not_hex_64; format := schnorr |}.
Proof.
  apply schnorr_accepts_every_string_of_length_64. reflexivity.
Defined.

(** C10 at the generator. *)
Lemma ecdsa_schnorr_request_on_the_generator :
  exists r,
    @Ecdsa_validateAndNormalizePublicKey Noble.codec G_compressed
      (Some {| outputFormat := Some schnorr |}) = Returns r
    /\ publicKey r = G_uncompressed
    /\ length (publicKey r) = 130
    /\ format r = schnorr.
Proof.
  destruct generator_codec_facts as (_ & Hu & Hdc & _).
  destruct generator_accepted_forms as (Ac & _).
  rewrite <- Hu.
  apply (@ecdsa_schnorr_request_yields_uncompressed_encoding
           Noble.codec G_compressed compressed G_compressed G_point Ac Hdc).
  rewrite Hu. reflexivity.
Defined.

(** The body of the generator and its 65-byte spelling. *)
Lemma ecdsa_generator_body_and_prefixed_key :
  @Ecdsa_validateAndNormalizePublicKey Noble.codec G_body None
  = @Ecdsa_validateAndNormalizePublicKey Noble.codec ("04" ++ G_body) None.
Proof.
  apply (@ecdsa_body_is_the_uncompressed_key_without_prefix Noble.codec G_body None).
  reflexivity.
Defined.

(** X2 on a key of the compressed form that is not hexadecimal: the format
    check lets it through and the provider's parser fails on it. *)
Lemma ecdsa_key_that_is_not_hex_fails_in_the_provider :
  @Ecdsa_validateAndNormalizePublicKey Noble.codec not_hex_compressed None
  = Throws (ProviderFailure (JsError "hex string expected, got non-hex character"))
  /\ exists f h,
       AcceptedForm not_hex_compressed f h
       /\ @secp256k1_Point_fromHex Noble.codec h
          = Throws (JsError "hex string expected, got non-hex character").
Proof.
  assert (Hrun : @Ecdsa_validateAndNormalizePublicKey Noble.codec not_hex_compressed None
                 = Throws (ProviderFailure
                             (JsError "hex string expected, got non-hex character")))
    by (vm_compute; reflexivity).
  split; [exact Hrun |].
  destruct (@ecdsa_failure_is_format_or_provider Noble.codec _ _ _ Hrun)
    as [(He & _) | (f & h & n & Hacc & Hdec & He)]; [discriminate He |].
  injection He as <-. exists f, h. split; [exact Hacc | exact Hdec].
Defined.

(** X4 at the generator: its body normalised to the uncompressed key, and
    that key normalised under the default options. *)
Lemma ecdsa_renormalising_the_generator :
  exists r,
    @Ecdsa_validateAndNormalizePublicKey Noble.codec G_body
      (Some {| outputFormat := Some uncompressed |}) = Returns r
    /\ @Ecdsa_validateAndNormalizePublicKey Noble.codec (publicKey r) None
       = @Ecdsa_validateAndNormalizePublicKey Noble.codec G_body None.
Proof.
  destruct generator_codec_facts as (Hc & Hu & Hdc & Hdu).
  destruct generator_accepted_forms as (Ac & Au & Ab).
  apply (@ecdsa_renormalising_a_result Noble.codec G_body uncompressed G_uncompressed G_point).
  - exact Ab.
  - exact Hdu.
  - rewrite Hc. exact Ac.
  - rewrite Hc. exact Hdc.
  - rewrite Hu. exact Au.
  - rewrite Hu. exact Hdu.
Defined.

(** X6 on the generator and a key that shares its length and prefix. *)
Lemma ecdsa_format_of_two_keys_with_the_same_prefix :
  Ecdsa_inputFormat G_compressed = Ecdsa_inputFormat not_hex_compressed
  /\ (@Ecdsa_validateAndNormalizePublicKey Noble.codec G_compressed None
      = Throws (KeyValidationError "Invalid ECDSA public key format. Expected 33 or 65 bytes.")
      <-> @Ecdsa_validateAndNormalizePublicKey Noble.codec not_hex_compressed None
          = Throws (KeyValidationError "Invalid ECDSA public key format. Expected 33 or 65 bytes.")).
Proof.
  apply (@ecdsa_format_reads_length_and_two_characters
           Noble.codec G_compressed not_hex_compressed None); reflexivity.
Defined.
